(** * SRL tax calculator: a shallow embedding of [srl-tax-calculator.ts]

    The calculator is one TypeScript module of functions over JavaScript
    numbers, strings and arrays.  They are pure except for what they read
    from the host: the clock ([new Date()]), the date parser
    ([new Date(string)]) and the local time zone ([getFullYear]).
    [calculateSRLTaxes] and everything it calls is embedded; the stand-alone
    helper [calculateSRLInstallments] is not.

    Conventions of the embedding.
    - A JavaScript number is [NaN] or an exact rational ([Num q], [q : Q]).
      Arithmetic is exact: the rounding and overflow of binary64 are not
      modelled, and no infinity exists (every divisor in the modelled code is
      a non-zero constant).  Results of arithmetic are kept in lowest terms
      ([Qred]) so that equal numbers computed by the code are equal terms.
    - The numeric fields of the input record are rationals: the data model
      gives every amount as a real number, so [NaN] is never an input; it
      only arises inside the computation.
    - Year fields are integers ([Z]); they are printed in decimal inside the
      date strings exactly as template literals print integers.
    - Optional fields are [option]; [undefined] is [None].
    - Reading [table[key]] on an object literal finds the table's own keys
      and, failing those, the members every object inherits from
      [Object.prototype] ([Lookup]).
    - The host is explicit ([Host]): the current time value, the date parser
      and the local time-zone adjustment.  All theorems quantify over the
      host; closed examples use [iso_host], whose parser accepts the
      ECMAScript date-only form [YYYY-MM-DD]. *)

From Stdlib Require Import ZArith QArith Qround Qreduction Qabs Qminmax.
From Stdlib Require Import List String Ascii Bool DecimalString.
From Stdlib Require Import Lia Lqa Permutation Morphisms.
Import ListNotations.

Set Implicit Arguments.

(** ** JavaScript numbers *)

Inductive number : Type :=
| NaN
| Num (q : Q).

Declare Scope js_scope.
Delimit Scope js_scope with js.
Bind Scope js_scope with number.

Module JS.

Definition add (a b : number) : number :=
  match a, b with
  | Num x, Num y => Num (Qred (x + y))
  | _, _ => NaN
  end.

Definition sub (a b : number) : number :=
  match a, b with
  | Num x, Num y => Num (Qred (x - y))
  | _, _ => NaN
  end.

Definition mul (a b : number) : number :=
  match a, b with
  | Num x, Num y => Num (Qred (x * y))
  | _, _ => NaN
  end.

(** Division by zero would be an infinity (or [NaN]); the calculator only
    divides by non-zero constants, so the model maps it to [NaN]. *)
Definition div (a b : number) : number :=
  match a, b with
  | Num x, Num y => if Qeq_bool y 0 then NaN else Num (Qred (x / y))
  | _, _ => NaN
  end.

(** Comparisons: every comparison with [NaN] is false. *)
Definition ltb (a b : number) : bool :=
  match a, b with
  | Num x, Num y => match x ?= y with Lt => true | _ => false end
  | _, _ => false
  end.

Definition leb (a b : number) : bool :=
  match a, b with
  | Num x, Num y => Qle_bool x y
  | _, _ => false
  end.

Definition gtb (a b : number) : bool := ltb b a.
Definition geb (a b : number) : bool := leb b a.

(** [a === b] on numbers. *)
Definition eqb (a b : number) : bool :=
  match a, b with
  | Num x, Num y => Qeq_bool x y
  | _, _ => false
  end.

(** ToBoolean on a number: [0] and [NaN] are falsy. *)
Definition truthy (a : number) : bool :=
  match a with
  | Num x => negb (Qeq_bool x 0)
  | NaN => false
  end.

(** [a || d] where [a] is a number. *)
Definition or (a d : number) : number := if truthy a then a else d.

(** An optional numeric field read as a value: [undefined] is falsy. *)
Definition opt_truthy (o : option Q) : bool :=
  match o with
  | Some q => truthy (Num q)
  | None => false
  end.

(** ToNumber of an optional numeric field: [undefined] becomes [NaN]. *)
Definition toNumber (o : option Q) : number :=
  match o with
  | Some q => Num q
  | None => NaN
  end.

(** [field || d] for an optional numeric field. *)
Definition opt_or (o : option Q) (d : number) : number :=
  match o with
  | Some q => or (Num q) d
  | None => d
  end.

End JS.

Notation "a + b" := (JS.add a b) : js_scope.
Notation "a - b" := (JS.sub a b) : js_scope.
Notation "a * b" := (JS.mul a b) : js_scope.
Notation "a / b" := (JS.div a b) : js_scope.
Notation "a <? b" := (JS.ltb a b) (at level 70) : js_scope.
Notation "a <=? b" := (JS.leb a b) (at level 70) : js_scope.
Notation "a >? b" := (JS.gtb a b) (at level 70) : js_scope.
Notation "a >=? b" := (JS.geb a b) (at level 70) : js_scope.
Notation "a === b" := (JS.eqb a b) (at level 70) : js_scope.
Notation "a || d" := (JS.opt_or a d) : js_scope.

(** ** The [Math] object *)

Module Math.

(** [Math.max(a, b)]: [NaN] if either argument is. *)
Definition max (a b : number) : number :=
  match a, b with
  | Num x, Num y => if Qle_bool x y then b else a
  | _, _ => NaN
  end.

Definition max3 (a b c : number) : number := max (max a b) c.

Definition min (a b : number) : number :=
  match a, b with
  | Num x, Num y => if Qle_bool x y then a else b
  | _, _ => NaN
  end.

Definition abs (a : number) : number :=
  match a with
  | Num x => Num (Qred (Qabs x))
  | NaN => NaN
  end.

(** [Math.round]: the nearest integer, ties towards plus infinity. *)
Definition round (a : number) : number :=
  match a with
  | Num x => Num (inject_Z (Qfloor (x + (1 # 2))))
  | NaN => NaN
  end.

Definition ceil (a : number) : number :=
  match a with
  | Num x => Num (inject_Z (Qceiling x))
  | NaN => NaN
  end.

End Math.

(** [Math.round(x * 100) / 100], the two-decimal rounding the calculator
    applies to every reported amount. *)
Definition round2 (x : number) : number :=
  (Math.round (x * Num 100) / Num 100)%js.

(** ** Strings *)

Definition Z_toString (z : Z) : string := NilZero.string_of_int (Z.to_int z).

(** [s.padStart(2, '0')] *)
Definition padStart2 (s : string) : string :=
  if (String.length s <? 2)%nat then
    (if (String.length s <? 1)%nat then "00" else "0" ++ s)%string
  else s.

(** [s.split(sep)] for a one-character separator. *)
Fixpoint split_aux (sep : ascii) (s : string) (cur : string) : list string :=
  match s with
  | EmptyString => [cur]
  | String c rest =>
      if Ascii.eqb c sep then cur :: split_aux sep rest EmptyString
      else split_aux sep rest (cur ++ String c EmptyString)%string
  end.

Definition split (sep : ascii) (s : string) : list string :=
  split_aux sep s EmptyString.

(** [l.join(sep)] *)
Definition join (sep : string) (l : list string) : string := String.concat sep l.

(** ** Dates and the host *)

Definition msPerDay : Z := 86400000.

(** Day number (days since 1970-01-01) of a proleptic Gregorian date. *)
Definition days_from_civil (y m d : Z) : Z :=
  let y' := if (m <=? 2)%Z then (y - 1)%Z else y in
  let era := (y' / 400)%Z in
  let yoe := (y' - era * 400)%Z in
  let mp := ((m + 9) mod 12)%Z in
  let doy := ((153 * mp + 2) / 5 + d - 1)%Z in
  let doe := (yoe * 365 + yoe / 4 - yoe / 100 + doy)%Z in
  (era * 146097 + doe - 719468)%Z.

(** [YearFromTime(t)] of ECMA-262. *)
Definition YearFromTime (t : Z) : Z :=
  let z := (t / msPerDay + 719468)%Z in
  let era := (z / 146097)%Z in
  let doe := (z - era * 146097)%Z in
  let yoe := ((doe - doe / 1460 + doe / 36524 - doe / 146096) / 365)%Z in
  let y := (yoe + era * 400)%Z in
  let doy := (doe - (365 * yoe + yoe / 4 - yoe / 100))%Z in
  let mp := ((5 * doy + 2) / 153)%Z in
  let m := if (mp <? 10)%Z then (mp + 3)%Z else (mp - 9)%Z in
  if (m <=? 2)%Z then (y + 1)%Z else y.

(** What the calculator reads from its host. *)
Record Host : Type := {
  (** the time value of [new Date()], in milliseconds since the epoch *)
  now : Z;
  (** [Date.parse]: the time value of a date string, [None] when the string
      is not a date (an Invalid Date, whose time value is [NaN]) *)
  Date_parse : string -> option Z;
  (** the local time-zone adjustment, in milliseconds *)
  LocalTZA : Z
}.

(** A [Date] object is its time value; [None] is an Invalid Date. *)
Definition Date := option Z.

Definition getTime (d : Date) : number :=
  match d with
  | Some t => Num (inject_Z t)
  | None => NaN
  end.

Section WithHost.

Variable host : Host.

Definition new_Date (s : string) : Date := Date_parse host s.

Definition today : Date := Some (now host).

Definition getFullYear (d : Date) : number :=
  match d with
  | Some t => Num (inject_Z (YearFromTime (t + LocalTZA host)))
  | None => NaN
  end.

(** [new Date(s.split('/').reverse().join('-'))], the key under which the
    [dd/mm/yyyy] strings of the calendar are compared. *)
Definition dateOf (s : string) : Date :=
  new_Date (join "-" (rev (split "/" s))).

End WithHost.

(** ** Arrays *)

(** [l.push(x1, ..., xn)] *)
Definition push (A : Type) (l items : list A) : list A := (l ++ items)%list.

(** ** [Array.prototype.sort]

    The sort is stable.  A comparator result that is [NaN] counts as [+0]
    (ECMA-262, SortCompare).  With a consistent comparator the result below
    is the one every engine returns; with an inconsistent one (some key is
    [NaN]) the order is implementation-defined, and this is one such order. *)

Section Sort.

Variable A : Type.
Variable cmp : A -> A -> number.

(** [x] sorts strictly after [y]. *)
Definition after (x y : A) : bool := (cmp x y >? Num 0)%js.

Fixpoint insert (x : A) (l : list A) : list A :=
  match l with
  | [] => [x]
  | y :: l' => if after x y then y :: insert x l' else x :: y :: l'
  end.

Fixpoint Array_sort (l : list A) : list A :=
  match l with
  | [] => []
  | x :: l' => insert x (Array_sort l')
  end.

End Sort.

(** ** Data model *)

Module Input.
Record t : Type := {
  revenue : Q;
  costs : Q;
  employees : Q;
  employeeCosts : Q;
  adminSalary : Q;
  region : string;
  businessSector : string;
  vatRegime : string;
  hasVatDebt : bool;
  vatDebt : Q;
  currentBalance : Q;
  startDate : option string;
  startYear : option Z;
  vatOnSales : option Q;
  vatOnPurchases : option Q;
  fiscalYear : option Z;
  revenue2024 : option Q;
  costs2024 : option Q;
  utile2024 : option Q;
  utile2023 : option Q;
  investimentiPrevisti : option Q;
  mediaULA2022_2024 : option Q;
  dipendentiTempo2024 : option Q;
  nuoveAssunzioni2025 : option Q;
  hasUsedCIG : option bool;
  interessiAttivi : option Q;
  interessiPassivi : option Q;
  rolFiscale : option Q;
  perditePregresseOrdinarie : option Q;
  perditePrimi3Esercizi : option Q;
  costoNuoveAssunzioni : option Q;
  incrementoCostoPersonale : option Q
}.
End Input.

Definition SRLTaxCalculationInput : Type := Input.t.

Inductive Category : Type := IRES | IRAP | IVA | INPS | ACCUMULO.

(** The object [checkIresPremialeConditions] returns as [details]. *)
Module PremialeDetails.
Record t : Type := {
  condition1_utiliAccantonati : bool;
  condition2_investimenti : bool;
  condition3_livelloOccupazionale : bool;
  condition4_nuoveAssunzioni : bool;
  condition5_noCIG : bool;
  requiredInvestment : number;
  actualInvestment : number;
  requiredReserve : number;
  incrementoMinimo : number
}.
End PremialeDetails.

Module PremialeCheck.
Record t : Type := {
  isApplicable : bool;
  details : option PremialeDetails.t
}.
End PremialeCheck.

Module RolDetails.
Record t : Type := {
  rolFiscale : number;
  interessiAttiviTotali : number;
  interessiPassiviDeducibili : number;
  interessiPassiviIndeducibili : number;
  limitROL : number
}.
End RolDetails.

Module LossesUsage.
Record t : Type := {
  lossesUsed : number;
  remainingLosses : number
}.
End LossesUsage.

Module AccontiDetails.
Record t : Type := {
  isNewBusiness : bool;
  accontiBasedOn2024 : bool;
  accontiRate : number
}.
End AccontiDetails.

(** An entry of [vatDeadlines]. *)
Module Deadline.
Record t : Type := {
  date : string;
  amount : number;
  type : string
}.
End Deadline.

(** An entry of [calendar2025]. *)
Module CalendarEvent.
Record t : Type := {
  date : string;
  amount : number;
  type : string;
  category : Category;
  description : string
}.
End CalendarEvent.

(** An element of [allEvents] inside [createPaymentSchedule]. *)
Module Event.
Record t : Type := {
  date : string;
  amount : number;
  type : string;
  category : Category;
  description : string;
  isIncome : bool
}.
End Event.

(** A row of [paymentSchedule]. *)
Module Row.
Record t : Type := {
  date : string;
  amount : number;
  type : string;
  category : Category;
  description : string;
  previousBalance : number;
  newBalance : number;
  deficit : number;
  isIncome : bool;
  requiredPayment : number
}.
End Row.

Module Result.
Record t : Type := {
  fiscalYear : Z;
  grossProfit : number;
  taxableIncome : number;
  taxableIncomeAfterLosses : number;
  iresAmount : number;
  iresRate : number;
  isIresPremialeApplicable : bool;
  iresPremialeDetails : option PremialeDetails.t;
  irapBase : number;
  irapDeductions : number;
  irapTaxableIncome : number;
  irapAmount : number;
  irapRate : number;
  lossesUsed : number;
  remainingLosses : number;
  superDeductionAmount : number;
  rolDetails : RolDetails.t;
  vatOnSales : number;
  vatOnPurchases : number;
  vatAmount : number;
  vatQuarterly : number;
  vatDeadlines : list Deadline.t;
  inpsAdmin : number;
  inpsEmployees : number;
  inpsTotalAmount : number;
  totalTaxes : number;
  totalDue : number;
  iresFirstAcconto : number;
  iresSecondAcconto : number;
  irapFirstAcconto : number;
  irapSecondAcconto : number;
  accontiDetails : AccontiDetails.t;
  monthlyAccrual : number;
  quarterlyPayments : number;
  calendar2025 : list CalendarEvent.t;
  paymentSchedule : list Row.t
}.
End Result.

Definition SRLTaxCalculationResult : Type := Result.t.

(** ** Rate tables *)

(** What reading a property of an object literal yields: the value of an own
    key, a member inherited from [Object.prototype] (a function, or the
    prototype object itself for [__proto__]), or [undefined]. *)
Inductive Lookup (V : Type) : Type :=
| Own (v : V)
| Inherited
| Undefined.

Arguments Inherited {V}.
Arguments Undefined {V}.

(** The property names every object literal inherits from [Object.prototype]. *)
Definition Object_prototype_keys : list string :=
  [ "constructor"; "hasOwnProperty"; "isPrototypeOf"; "propertyIsEnumerable";
    "toLocaleString"; "toString"; "valueOf"; "__proto__";
    "__defineGetter__"; "__defineSetter__"; "__lookupGetter__";
    "__lookupSetter__" ]%string.

Definition inherited_key (k : string) : bool :=
  existsb (String.eqb k) Object_prototype_keys.

Fixpoint assoc (V : Type) (k : string) (l : list (string * V)) : option V :=
  match l with
  | [] => None
  | (k', v) :: l' => if String.eqb k k' then Some v else assoc k l'
  end.

(** [table[k]] for an object literal [table]. *)
Definition get (V : Type) (table : list (string * V)) (k : string) : Lookup V :=
  match assoc k table with
  | Some v => Own v
  | None => if inherited_key k then Inherited else Undefined
  end.

Definition IRAP_RATES : list (string * Q) :=
  [ ("PIEMONTE", 3.9); ("VALLE_AOSTA", 3.9); ("LOMBARDIA", 3.9);
    ("TRENTINO", 2.68); ("VENETO", 4.08); ("FRIULI", 3.9); ("LIGURIA", 3.9);
    ("EMILIA_ROMAGNA", 4.65); ("TOSCANA", 3.9); ("UMBRIA", 3.9);
    ("MARCHE", 4.73); ("LAZIO", 4.82); ("ABRUZZO", 4.82); ("MOLISE", 4.82);
    ("CAMPANIA", 4.97); ("PUGLIA", 4.82); ("BASILICATA", 3.9);
    ("CALABRIA", 4.82); ("SICILIA", 3.9); ("SARDEGNA", 2.93) ]%string.

Module VatRegime.
Record t : Type := {
  label : string;
  frequency : Q;
  description : string
}.
End VatRegime.

(** The euro sign and the less-or-equal sign of the two descriptions are
    spelled in ASCII; no function reads them. *)
Definition VAT_REGIMES : list (string * VatRegime.t) :=
  [ ("MENSILE",
      {| VatRegime.label := "Liquidazione Mensile";
         VatRegime.frequency := 12;
         VatRegime.description := "Obbligo per fatturato > 400k" |});
    ("TRIMESTRALE",
      {| VatRegime.label := "Liquidazione Trimestrale";
         VatRegime.frequency := 4;
         VatRegime.description := "Standard per fatturato <= 400k" |}) ]%string.

(** [(IRAP_RATES[region] || 3.9) / 100]: an own key gives its rate, an
    unknown key the fallback; an inherited member is truthy and is not a
    number, so dividing it gives [NaN]. *)
Definition irapRate_of (region : string) : number :=
  match get IRAP_RATES region with
  | Own r => (JS.or (Num r) (Num 3.9) / Num 100)%js
  | Inherited => NaN
  | Undefined => (Num 3.9 / Num 100)%js
  end.

(** [VAT_REGIMES[vatRegime]?.frequency || 4]: an inherited member has no
    [frequency], so the fallback applies to it as well. *)
Definition vatFrequency_of (vatRegime : string) : number :=
  match get VAT_REGIMES vatRegime with
  | Own r => JS.or (Num (VatRegime.frequency r)) (Num 4)
  | Inherited => Num 4
  | Undefined => Num 4
  end.

(** ** The resolvers *)

Local Open Scope string_scope.
Local Open Scope js_scope.

(** [input.fiscalYear !== 2025] *)
Definition fiscalYear_is_not_2025 (input : Input.t) : bool :=
  match Input.fiscalYear input with
  | Some y => negb (y =? 2025)%Z
  | None => true
  end.

(** [!input.hasUsedCIG] *)
Definition not_hasUsedCIG (input : Input.t) : bool :=
  match Input.hasUsedCIG input with
  | Some b => negb b
  | None => true
  end.

Definition checkIresPremialeConditions (input : Input.t) : PremialeCheck.t :=
  if fiscalYear_is_not_2025 input then
    {| PremialeCheck.isApplicable := false; PremialeCheck.details := None |}
  else
    let utile2024 := Input.utile2024 input || Num 0 in
    let utile2023 := Input.utile2023 input || Num 0 in
    let requiredReserve := utile2024 * Num 0.8 in
    let condition1 := (utile2024 >? Num 0) && (requiredReserve >? Num 0) in
    let investmentFromReserve := requiredReserve * Num 0.3 in
    let investmentFrom2023 := utile2023 * Num 0.24 in
    let requiredInvestment :=
      Math.max3 investmentFromReserve investmentFrom2023 (Num 20000) in
    let actualInvestment := Input.investimentiPrevisti input || Num 0 in
    let condition2 := actualInvestment >=? requiredInvestment in
    let mediaULA2022_2024 := Input.mediaULA2022_2024 input || Num 0 in
    let ulaStimate2025 := Input.dipendentiTempo2024 input || Num 0 in
    let condition3 :=
      (mediaULA2022_2024 >? Num 0) && (ulaStimate2025 >=? mediaULA2022_2024) in
    let dipendenti2024 := Input.dipendentiTempo2024 input || Num 0 in
    let incrementoMinimo :=
      Math.max (Num 1) (Math.ceil (dipendenti2024 * Num 0.01)) in
    let nuoveAssunzioni := Input.nuoveAssunzioni2025 input || Num 0 in
    let condition4 := nuoveAssunzioni >=? incrementoMinimo in
    let condition5 := not_hasUsedCIG input in
    let isApplicable :=
      condition1 && condition2 && condition3 && condition4 && condition5 in
    {| PremialeCheck.isApplicable := isApplicable;
       PremialeCheck.details := Some
         {| PremialeDetails.condition1_utiliAccantonati := condition1;
            PremialeDetails.condition2_investimenti := condition2;
            PremialeDetails.condition3_livelloOccupazionale := condition3;
            PremialeDetails.condition4_nuoveAssunzioni := condition4;
            PremialeDetails.condition5_noCIG := condition5;
            PremialeDetails.requiredInvestment := requiredInvestment;
            PremialeDetails.actualInvestment := actualInvestment;
            PremialeDetails.requiredReserve := requiredReserve;
            PremialeDetails.incrementoMinimo := incrementoMinimo |} |}.

Definition calculateROLAndInterests (input : Input.t) : RolDetails.t :=
  let interessiAttivi := Input.interessiAttivi input || Num 0 in
  let interessiPassivi := Input.interessiPassivi input || Num 0 in
  let rolFiscale :=
    Input.rolFiscale input || (Num (Input.revenue input) * Num 0.15) in
  let interessiAttiviTotali := interessiAttivi in
  let interessiPassiviCopertiDaAttivi :=
    Math.min interessiPassivi interessiAttiviTotali in
  let eccedenzaInteressiPassivi :=
    interessiPassivi - interessiPassiviCopertiDaAttivi in
  let limitROL := rolFiscale * Num 0.3 in
  let interessiPassiviCopertiDaROL :=
    Math.min eccedenzaInteressiPassivi limitROL in
  let interessiPassiviDeducibili :=
    interessiPassiviCopertiDaAttivi + interessiPassiviCopertiDaROL in
  let interessiPassiviIndeducibili :=
    interessiPassivi - interessiPassiviDeducibili in
  {| RolDetails.rolFiscale := rolFiscale;
     RolDetails.interessiAttiviTotali := interessiAttiviTotali;
     RolDetails.interessiPassiviDeducibili := interessiPassiviDeducibili;
     RolDetails.interessiPassiviIndeducibili := interessiPassiviIndeducibili;
     RolDetails.limitROL := limitROL |}.

Definition calculateLossesUsage (reddito : number) (input : Input.t)
  : LossesUsage.t :=
  if reddito <=? Num 0 then
    {| LossesUsage.lossesUsed := Num 0;
       LossesUsage.remainingLosses :=
         Input.perditePregresseOrdinarie input || Num 0 |}
  else
    let perditeOrdinarie := Input.perditePregresseOrdinarie input || Num 0 in
    let perditePrimi3 := Input.perditePrimi3Esercizi input || Num 0 in
    let perditePrimi3Used := Math.min perditePrimi3 reddito in
    let redditoResiduoDopoPrimi3 := reddito - perditePrimi3Used in
    let limiteOrdinary := redditoResiduoDopoPrimi3 * Num 0.8 in
    let perditeOrdinarieUsed := Math.min perditeOrdinarie limiteOrdinary in
    let totalLossesUsed := perditePrimi3Used + perditeOrdinarieUsed in
    let remainingLosses := perditeOrdinarie - perditeOrdinarieUsed in
    {| LossesUsage.lossesUsed := totalLossesUsed;
       LossesUsage.remainingLosses := remainingLosses |}.

Definition calculateSuperDeduction (input : Input.t) : number :=
  let costoNuove := Input.costoNuoveAssunzioni input || Num 0 in
  let incrementoCosto := Input.incrementoCostoPersonale input || Num 0 in
  if costoNuove === Num 0 then Num 0
  else
    let costoAgevolabile := Math.min costoNuove incrementoCosto in
    costoAgevolabile * Num 0.2.

Definition calculateIrapDeductions (input : Input.t) : number :=
  let deductions := Num 0 in
  let contributiBased := Num (Input.employeeCosts input) * Num 0.3 in
  let deductions := deductions + contributiBased in
  let deductions :=
    if String.eqb (Input.region input) "FRIULI" then deductions + Num 2000
    else deductions in
  deductions.

Definition getMonthName (month : Z) : string :=
  let months :=
    [ "Gennaio"; "Febbraio"; "Marzo"; "Aprile"; "Maggio"; "Giugno";
      "Luglio"; "Agosto"; "Settembre"; "Ottobre"; "Novembre"; "Dicembre" ] in
  if (month <? 0)%Z then "" else nth (Z.to_nat month) months "".

(** The values [1], ..., [12] of the loop variable [month]. *)
Definition months_1_to_12 : list Z := map Z.of_nat (seq 1 12).

Definition calculateVATDeadlines (vatRegime : string) (totalVatAmount : number)
    (frequency : number) (fiscalYear : Z) : list Deadline.t :=
  if String.eqb vatRegime "TRIMESTRALE" then
    let quarterlyAmount := totalVatAmount / Num 4 in
    [ {| Deadline.date := "16/04/" ++ Z_toString fiscalYear;
         Deadline.amount := quarterlyAmount;
         Deadline.type := "IVA Q1 " ++ Z_toString fiscalYear |};
      {| Deadline.date := "16/07/" ++ Z_toString fiscalYear;
         Deadline.amount := quarterlyAmount;
         Deadline.type := "IVA Q2 " ++ Z_toString fiscalYear |};
      {| Deadline.date := "16/10/" ++ Z_toString fiscalYear;
         Deadline.amount := quarterlyAmount;
         Deadline.type := "IVA Q3 " ++ Z_toString fiscalYear |};
      {| Deadline.date := "16/01/" ++ Z_toString (fiscalYear + 1);
         Deadline.amount := quarterlyAmount;
         Deadline.type := "IVA Q4 " ++ Z_toString fiscalYear |} ]
  else if String.eqb vatRegime "MENSILE" then
    let monthlyAmount := totalVatAmount / Num 12 in
    map (fun month : Z =>
           let paymentMonth := if (month =? 12)%Z then 1%Z else (month + 1)%Z in
           let paymentYear :=
             if (month =? 12)%Z then (fiscalYear + 1)%Z else fiscalYear in
           let paymentMonthStr := padStart2 (Z_toString paymentMonth) in
           {| Deadline.date :=
                "16/" ++ paymentMonthStr ++ "/" ++ Z_toString paymentYear;
              Deadline.amount := monthlyAmount;
              Deadline.type :=
                "IVA " ++ getMonthName (month - 1) ++ " "
                  ++ Z_toString fiscalYear |})
        months_1_to_12
  else [].

(** ** The fiscal calendar and the payment schedule *)

Section Calculator.

Variable host : Host.

(** The comparator both sorts use:
    [dateA.getTime() - dateB.getTime()]. *)
Definition compareDates (a b : string) : number :=
  let dateA := dateOf host a in
  let dateB := dateOf host b in
  getTime dateA - getTime dateB.

(** [paymentDate >= today] on two [Date] objects. *)
Definition notBeforeToday (paymentDate : Date) : bool :=
  getTime paymentDate >=? getTime (today host).

Definition createFiscalCalendar2025
    (iresFirstAcconto iresSecondAcconto irapFirstAcconto
     irapSecondAcconto : number)
    (vatDeadlines : list Deadline.t) (inpsTotalAmount : number)
    (fiscalYear : Z) (isNewBusiness2025 : bool) : list CalendarEvent.t :=
  let calendar :=
    map (fun deadline =>
           {| CalendarEvent.date := Deadline.date deadline;
              CalendarEvent.amount := Deadline.amount deadline;
              CalendarEvent.type := Deadline.type deadline;
              CalendarEvent.category := IVA;
              CalendarEvent.description := Deadline.type deadline |})
        vatDeadlines in
  let calendar :=
    if negb isNewBusiness2025 then
      let calendar :=
        if iresFirstAcconto >? Num 0 then
          push calendar
            [ {| CalendarEvent.date := "30/06/2025";
                 CalendarEvent.amount := iresFirstAcconto;
                 CalendarEvent.type := "IRES I Acconto 2025";
                 CalendarEvent.category := IRES;
                 CalendarEvent.description :=
                   "Primo acconto IRES 2025 (40% imposta 2024)" |} ]
        else calendar in
      let calendar :=
        if irapFirstAcconto >? Num 0 then
          push calendar
            [ {| CalendarEvent.date := "30/06/2025";
                 CalendarEvent.amount := irapFirstAcconto;
                 CalendarEvent.type := "IRAP I Acconto 2025";
                 CalendarEvent.category := IRAP;
                 CalendarEvent.description :=
                   "Primo acconto IRAP 2025 (40% imposta 2024)" |} ]
        else calendar in
      let calendar :=
        if iresSecondAcconto >? Num 0 then
          push calendar
            [ {| CalendarEvent.date := "30/11/2025";
                 CalendarEvent.amount := iresSecondAcconto;
                 CalendarEvent.type := "IRES II Acconto 2025";
                 CalendarEvent.category := IRES;
                 CalendarEvent.description :=
                   "Secondo acconto IRES 2025 (60% imposta 2024)" |} ]
        else calendar in
      let calendar :=
        if irapSecondAcconto >? Num 0 then
          push calendar
            [ {| CalendarEvent.date := "30/11/2025";
                 CalendarEvent.amount := irapSecondAcconto;
                 CalendarEvent.type := "IRAP II Acconto 2025";
                 CalendarEvent.category := IRAP;
                 CalendarEvent.description :=
                   "Secondo acconto IRAP 2025 (60% imposta 2024)" |} ]
        else calendar in
      calendar
    else calendar in
  let inpsQuarterly := inpsTotalAmount / Num 4 in
  let calendar :=
    if inpsQuarterly >? Num 0 then
      push calendar
        [ {| CalendarEvent.date := "16/05/" ++ Z_toString fiscalYear;
             CalendarEvent.amount := inpsQuarterly;
             CalendarEvent.type := "INPS I Trim " ++ Z_toString fiscalYear;
             CalendarEvent.category := INPS;
             CalendarEvent.description :=
               "Contributi INPS anno " ++ Z_toString fiscalYear
                 ++ " - I trimestre" |};
          {| CalendarEvent.date := "20/08/" ++ Z_toString fiscalYear;
             CalendarEvent.amount := inpsQuarterly;
             CalendarEvent.type := "INPS II Trim " ++ Z_toString fiscalYear;
             CalendarEvent.category := INPS;
             CalendarEvent.description :=
               "Contributi INPS anno " ++ Z_toString fiscalYear
                 ++ " - II trimestre" |};
          {| CalendarEvent.date := "16/11/" ++ Z_toString fiscalYear;
             CalendarEvent.amount := inpsQuarterly;
             CalendarEvent.type := "INPS III Trim " ++ Z_toString fiscalYear;
             CalendarEvent.category := INPS;
             CalendarEvent.description :=
               "Contributi INPS anno " ++ Z_toString fiscalYear
                 ++ " - III trimestre" |};
          {| CalendarEvent.date := "16/02/" ++ Z_toString (fiscalYear + 1);
             CalendarEvent.amount := inpsQuarterly;
             CalendarEvent.type := "INPS IV Trim " ++ Z_toString fiscalYear;
             CalendarEvent.category := INPS;
             CalendarEvent.description :=
               "Contributi INPS anno " ++ Z_toString fiscalYear
                 ++ " - IV trimestre" |} ]
    else calendar in
  Array_sort
    (fun a b => compareDates (CalendarEvent.date a) (CalendarEvent.date b))
    calendar.

(** The monthly deposits of the first loop of [createPaymentSchedule]. *)
Definition monthlyDeposits (monthlyAccrual : number) (fiscalYear : Z)
  : list Event.t :=
  flat_map
    (fun month : Z =>
       let monthStr := padStart2 (Z_toString month) in
       let paymentDate :=
         new_Date host (Z_toString fiscalYear ++ "-" ++ monthStr ++ "-01") in
       if notBeforeToday paymentDate then
         [ {| Event.date := "01/" ++ monthStr ++ "/" ++ Z_toString fiscalYear;
              Event.amount := monthlyAccrual;
              Event.type := "Versamento Mensile " ++ Z_toString month;
              Event.category := ACCUMULO;
              Event.description := "Accantonamento mensile consigliato";
              Event.isIncome := true |} ]
       else [])
    months_1_to_12.

(** The tax payments of the second loop: the calendar entries that are not
    in the past. *)
Definition futurePayments (calendar : list CalendarEvent.t) : list Event.t :=
  flat_map
    (fun payment =>
       let paymentDate := dateOf host (CalendarEvent.date payment) in
       if notBeforeToday paymentDate then
         [ {| Event.date := CalendarEvent.date payment;
              Event.amount := CalendarEvent.amount payment;
              Event.type := CalendarEvent.type payment;
              Event.category := CalendarEvent.category payment;
              Event.description := CalendarEvent.description payment;
              Event.isIncome := false |} ]
       else [])
    calendar.

(** One iteration of the replay loop: the state is the running balance and
    the schedule built so far. *)
Definition replayEvent (state : number * list Row.t) (event : Event.t)
  : number * list Row.t :=
  let '(runningBalance, schedule) := state in
  let previousBalance := runningBalance in
  let '(runningBalance, requiredPayment) :=
    if Event.isIncome event then
      (runningBalance + Event.amount event, Event.amount event)
    else
      let balanceAfterPayment := runningBalance - Event.amount event in
      if balanceAfterPayment <? Num 0 then
        (Num 0, Math.abs balanceAfterPayment)
      else (balanceAfterPayment, Num 0) in
  let deficit :=
    if runningBalance <? Num 0 then Math.abs runningBalance else Num 0 in
  (runningBalance,
   push schedule
     [ {| Row.date := Event.date event;
          Row.amount := Event.amount event;
          Row.type := Event.type event;
          Row.category := Event.category event;
          Row.description := Event.description event;
          Row.previousBalance := round2 previousBalance;
          Row.newBalance := round2 runningBalance;
          Row.deficit := round2 deficit;
          Row.isIncome := Event.isIncome event;
          Row.requiredPayment := round2 requiredPayment |} ]).

Definition createPaymentSchedule (calendar : list CalendarEvent.t)
    (currentBalance : number) (monthlyAccrual : number) (fiscalYear : Z)
  : list Row.t :=
  let allEvents :=
    (monthlyDeposits monthlyAccrual fiscalYear ++ futurePayments calendar)%list in
  let allEvents :=
    Array_sort
      (fun a b => compareDates (Event.date a) (Event.date b)) allEvents in
  snd (fold_left replayEvent allEvents (currentBalance, [])).

(** ** The orchestrator *)

(** [input.fiscalYear || 2025] *)
Definition fiscalYear_or_2025 (input : Input.t) : Z :=
  match Input.fiscalYear input with
  | Some y => if (y =? 0)%Z then 2025%Z else y
  | None => 2025%Z
  end.

(** [input.startYear ||
     (input.startDate ? new Date(input.startDate).getFullYear() : 2025)] *)
Definition resolveStartYear (input : Input.t) : number :=
  let fromStartDate :=
    match Input.startDate input with
    | Some s =>
        if String.eqb s "" then Num 2025 else getFullYear host (new_Date host s)
    | None => Num 2025
    end in
  match Input.startYear input with
  | Some y => if (y =? 0)%Z then fromStartDate else Num (inject_Z y)
  | None => fromStartDate
  end.

Definition calculateSRLTaxes (input : Input.t) : Result.t :=
  let fiscalYear := fiscalYear_or_2025 input in
  let startYear := resolveStartYear input in
  let usePreviousYearData := startYear <=? Num 2024 in
  (* 1. taxable income *)
  let grossProfit :=
    Num (Input.revenue input) - Num (Input.costs input)
      - Num (Input.employeeCosts input) in
  let taxableIncome :=
    Math.max (Num 0) (grossProfit - Num (Input.adminSalary input)) in
  (* 2. ROL and passive interest *)
  let rolDetails := calculateROLAndInterests input in
  let taxableIncome :=
    taxableIncome - RolDetails.interessiPassiviIndeducibili rolDetails in
  (* 3. super deduction *)
  let superDeductionAmount := calculateSuperDeduction input in
  let taxableIncome :=
    Math.max (Num 0) (taxableIncome - superDeductionAmount) in
  (* 4. tax losses *)
  let lossesUsage := calculateLossesUsage taxableIncome input in
  let taxableIncomeAfterLosses :=
    Math.max (Num 0) (taxableIncome - LossesUsage.lossesUsed lossesUsage) in
  (* 5. IRES premiale *)
  let iresPremialeCheck := checkIresPremialeConditions input in
  let iresRate :=
    if PremialeCheck.isApplicable iresPremialeCheck && (fiscalYear =? 2025)%Z
    then Num 0.20 else Num 0.24 in
  let iresAmount := taxableIncomeAfterLosses * iresRate in
  (* 6. IRAP *)
  let irapBase :=
    Num (Input.revenue input)
      - (Num (Input.costs input) - Num (Input.employeeCosts input)) in
  let irapDeductions := calculateIrapDeductions input in
  let irapTaxableIncome := Math.max (Num 0) (irapBase - irapDeductions) in
  let irapRate := irapRate_of (Input.region input) in
  let irapAmount := irapTaxableIncome * irapRate in
  (* 7. VAT *)
  let vatOnSales :=
    Input.vatOnSales input || (Num (Input.revenue input) * Num 0.22) in
  let vatOnPurchases :=
    Input.vatOnPurchases input || (Num (Input.costs input) * Num 0.22) in
  let vatAmount := Math.max (Num 0) (vatOnSales - vatOnPurchases) in
  let vatAmount :=
    if Input.hasVatDebt input && (Num (Input.vatDebt input) >? Num 0)
    then vatAmount + Num (Input.vatDebt input) else vatAmount in
  let vatFrequency := vatFrequency_of (Input.vatRegime input) in
  let vatQuarterly := vatAmount / (vatFrequency / Num 4) in
  let vatDeadlines :=
    calculateVATDeadlines (Input.vatRegime input) vatAmount vatFrequency
      fiscalYear in
  (* 8. INPS *)
  let inpsAdmin :=
    if Num (Input.adminSalary input) >? Num 0 then
      let adminMinimum := Num 18324 in
      let adminMaximum := Num 105014 in
      let adminContributionBase :=
        Math.max adminMinimum
          (Math.min (Num (Input.adminSalary input)) adminMaximum) in
      adminContributionBase * Num 0.24
    else Num 0 in
  let inpsEmployees :=
    if (Num (Input.employees input) >? Num 0)
       && (Num (Input.employeeCosts input) >? Num 0)
    then Num (Input.employeeCosts input) * Num 0.30 else Num 0 in
  let inpsTotalAmount := inpsAdmin + inpsEmployees in
  (* 9. totals *)
  let totalTaxes := iresAmount + irapAmount in
  let totalDue := totalTaxes + inpsTotalAmount + vatAmount in
  (* 10. acconti *)
  let isNewBusiness2025 := startYear >=? Num 2025 in
  let accontiDetails :=
    {| AccontiDetails.isNewBusiness := isNewBusiness2025;
       AccontiDetails.accontiBasedOn2024 :=
         usePreviousYearData && negb isNewBusiness2025;
       AccontiDetails.accontiRate := Num 0.40 |} in
  let computeAcconti := negb isNewBusiness2025 && usePreviousYearData in
  let baseIres :=
    if JS.opt_truthy (Input.utile2024 input)
    then JS.toNumber (Input.utile2024 input) * Num 0.24
    else iresAmount * Num 0.8 in
  let baseIrap :=
    if JS.opt_truthy (Input.revenue2024 input)
    then (JS.toNumber (Input.revenue2024 input)
            - (Input.costs2024 input || Num 0)) * irapRate
    else irapAmount * Num 0.8 in
  let iresFirstAcconto :=
    if computeAcconti then baseIres * Num 0.40 else Num 0 in
  let iresSecondAcconto :=
    if computeAcconti then baseIres * Num 0.60 else Num 0 in
  let irapFirstAcconto :=
    if computeAcconti then baseIrap * Num 0.40 else Num 0 in
  let irapSecondAcconto :=
    if computeAcconti then baseIrap * Num 0.60 else Num 0 in
  (* 11. monthly accrual *)
  let monthlyAccrual := totalDue / Num 12 in
  let quarterlyPayments := vatQuarterly + inpsTotalAmount / Num 4 in
  (* 12. calendar and schedule *)
  let calendar2025 :=
    createFiscalCalendar2025 iresFirstAcconto iresSecondAcconto
      irapFirstAcconto irapSecondAcconto vatDeadlines inpsTotalAmount
      fiscalYear isNewBusiness2025 in
  let paymentSchedule :=
    createPaymentSchedule calendar2025 (Num (Input.currentBalance input))
      monthlyAccrual fiscalYear in
  {| Result.fiscalYear := fiscalYear;
     Result.grossProfit := round2 grossProfit;
     Result.taxableIncome := round2 taxableIncome;
     Result.taxableIncomeAfterLosses := round2 taxableIncomeAfterLosses;
     Result.iresAmount := round2 iresAmount;
     Result.iresRate := iresRate;
     Result.isIresPremialeApplicable :=
       PremialeCheck.isApplicable iresPremialeCheck;
     Result.iresPremialeDetails :=
       if PremialeCheck.isApplicable iresPremialeCheck
       then PremialeCheck.details iresPremialeCheck else None;
     Result.irapBase := round2 irapBase;
     Result.irapDeductions := round2 irapDeductions;
     Result.irapTaxableIncome := round2 irapTaxableIncome;
     Result.irapAmount := round2 irapAmount;
     Result.irapRate := irapRate;
     Result.lossesUsed := round2 (LossesUsage.lossesUsed lossesUsage);
     Result.remainingLosses :=
       round2 (LossesUsage.remainingLosses lossesUsage);
     Result.superDeductionAmount := round2 superDeductionAmount;
     Result.rolDetails :=
       {| RolDetails.rolFiscale :=
            round2 (RolDetails.rolFiscale rolDetails);
          RolDetails.interessiAttiviTotali :=
            round2 (RolDetails.interessiAttiviTotali rolDetails);
          RolDetails.interessiPassiviDeducibili :=
            round2 (RolDetails.interessiPassiviDeducibili rolDetails);
          RolDetails.interessiPassiviIndeducibili :=
            round2 (RolDetails.interessiPassiviIndeducibili rolDetails);
          RolDetails.limitROL := round2 (RolDetails.limitROL rolDetails) |};
     Result.vatOnSales := round2 vatOnSales;
     Result.vatOnPurchases := round2 vatOnPurchases;
     Result.vatAmount := round2 vatAmount;
     Result.vatQuarterly := round2 vatQuarterly;
     Result.vatDeadlines :=
       map (fun deadline =>
              {| Deadline.date := Deadline.date deadline;
                 Deadline.amount := round2 (Deadline.amount deadline);
                 Deadline.type := Deadline.type deadline |})
           vatDeadlines;
     Result.inpsAdmin := round2 inpsAdmin;
     Result.inpsEmployees := round2 inpsEmployees;
     Result.inpsTotalAmount := round2 inpsTotalAmount;
     Result.totalTaxes := round2 totalTaxes;
     Result.totalDue := round2 totalDue;
     Result.iresFirstAcconto := round2 iresFirstAcconto;
     Result.iresSecondAcconto := round2 iresSecondAcconto;
     Result.irapFirstAcconto := round2 irapFirstAcconto;
     Result.irapSecondAcconto := round2 irapSecondAcconto;
     Result.accontiDetails := accontiDetails;
     Result.monthlyAccrual := round2 monthlyAccrual;
     Result.quarterlyPayments := round2 quarterlyPayments;
     Result.calendar2025 := calendar2025;
     Result.paymentSchedule := paymentSchedule |}.

End Calculator.

(** ** A concrete host

    [iso_Date_parse] recognises the date-only form [YYYY-MM-DD] of the
    ECMAScript date-time string format, read as UTC midnight; every other
    string is not a date for it. *)

Definition digit (c : ascii) : option Z :=
  let n := nat_of_ascii c in
  if ((48 <=? n) && (n <=? 57))%nat then Some (Z.of_nat (n - 48)) else None.

Definition number2 (a b : ascii) : option Z :=
  match digit a, digit b with
  | Some x, Some y => Some (10 * x + y)%Z
  | _, _ => None
  end.

Definition isLeapYear (y : Z) : bool :=
  (y mod 4 =? 0)%Z && orb (negb (y mod 100 =? 0)%Z) (y mod 400 =? 0)%Z.

Definition daysInMonth (y m : Z) : Z :=
  if (m =? 2)%Z then (if isLeapYear y then 29%Z else 28%Z)
  else if existsb (Z.eqb m) [4; 6; 9; 11]%Z then 30%Z
  else 31%Z.

Definition iso_Date_parse (s : string) : option Z :=
  match s with
  | String y1 (String y2 (String y3 (String y4 (String "-"
      (String m1 (String m2 (String "-"
        (String d1 (String d2 EmptyString))))))))) =>
      match number2 y1 y2, number2 y3 y4, number2 m1 m2, number2 d1 d2 with
      | Some yh, Some yl, Some m, Some d =>
          let y := (100 * yh + yl)%Z in
          if ((1 <=? m) && (m <=? 12) && (1 <=? d) && (d <=? daysInMonth y m))%Z
          then Some (days_from_civil y m d * msPerDay)%Z
          else None
      | _, _, _, _ => None
      end
  | _ => None
  end.

(** The host whose clock shows UTC midnight of the given day, in UTC. *)
Definition iso_host (y m d : Z) : Host :=
  {| now := (days_from_civil y m d * msPerDay)%Z;
     Date_parse := iso_Date_parse;
     LocalTZA := 0%Z |}.


(** ** Sample inputs *)

(** The reference scenario of the calculator: a company with two employees,
    parameterised by region, VAT regime, start year and fiscal year. *)
Definition scenario (region vatRegime : string) (startYear fiscalYear : option Z)
  : Input.t :=
  {| Input.revenue := 500000; Input.costs := 300000; Input.employees := 2;
     Input.employeeCosts := 80000; Input.adminSalary := 40000;
     Input.region := region; Input.businessSector := "SERVIZI";
     Input.vatRegime := vatRegime;
     Input.hasVatDebt := false; Input.vatDebt := 0;
     Input.currentBalance := 0;
     Input.startDate := None; Input.startYear := startYear;
     Input.vatOnSales := None; Input.vatOnPurchases := None;
     Input.fiscalYear := fiscalYear;
     Input.revenue2024 := None; Input.costs2024 := None;
     Input.utile2024 := None; Input.utile2023 := None;
     Input.investimentiPrevisti := None;
     Input.mediaULA2022_2024 := None; Input.dipendentiTempo2024 := None;
     Input.nuoveAssunzioni2025 := None; Input.hasUsedCIG := Some false;
     Input.interessiAttivi := None; Input.interessiPassivi := None;
     Input.rolFiscale := None;
     Input.perditePregresseOrdinarie := None;
     Input.perditePrimi3Esercizi := None;
     Input.costoNuoveAssunzioni := None;
     Input.incrementoCostoPersonale := None |}.

(** A company with no employees and no preferential-rate data; every field
    that is not a parameter is zero or absent. *)
Definition bare (revenue costs adminSalary currentBalance : Q)
    (vatOnSales perditePregresseOrdinarie perditePrimi3Esercizi : option Q)
    (startDate : option string) (startYear : option Z) : Input.t :=
  {| Input.revenue := revenue; Input.costs := costs; Input.employees := 0;
     Input.employeeCosts := 0; Input.adminSalary := adminSalary;
     Input.region := "LOMBARDIA"; Input.businessSector := "SERVIZI";
     Input.vatRegime := "NESSUNO";
     Input.hasVatDebt := false; Input.vatDebt := 0;
     Input.currentBalance := currentBalance;
     Input.startDate := startDate; Input.startYear := startYear;
     Input.vatOnSales := vatOnSales; Input.vatOnPurchases := None;
     Input.fiscalYear := Some 2025%Z;
     Input.revenue2024 := None; Input.costs2024 := None;
     Input.utile2024 := None; Input.utile2023 := None;
     Input.investimentiPrevisti := None;
     Input.mediaULA2022_2024 := None; Input.dipendentiTempo2024 := None;
     Input.nuoveAssunzioni2025 := None; Input.hasUsedCIG := None;
     Input.interessiAttivi := None; Input.interessiPassivi := None;
     Input.rolFiscale := None;
     Input.perditePregresseOrdinarie := perditePregresseOrdinarie;
     Input.perditePrimi3Esercizi := perditePrimi3Esercizi;
     Input.costoNuoveAssunzioni := None;
     Input.incrementoCostoPersonale := None |}.

(** The reference scenario with the preferential-rate data of a company that
    meets all five conditions, parameterised by the fiscal-year field. *)
Definition premiale (fiscalYear : option Z) : Input.t :=
  {| Input.revenue := 500000; Input.costs := 300000; Input.employees := 5;
     Input.employeeCosts := 80000; Input.adminSalary := 40000;
     Input.region := "LAZIO"; Input.businessSector := "SERVIZI";
     Input.vatRegime := "TRIMESTRALE";
     Input.hasVatDebt := false; Input.vatDebt := 0;
     Input.currentBalance := 0;
     Input.startDate := None; Input.startYear := Some 2023%Z;
     Input.vatOnSales := None; Input.vatOnPurchases := None;
     Input.fiscalYear := fiscalYear;
     Input.revenue2024 := None; Input.costs2024 := None;
     Input.utile2024 := Some 100000; Input.utile2023 := None;
     Input.investimentiPrevisti := Some 25000;
     Input.mediaULA2022_2024 := Some 5; Input.dipendentiTempo2024 := Some 5;
     Input.nuoveAssunzioni2025 := Some 1; Input.hasUsedCIG := Some false;
     Input.interessiAttivi := None; Input.interessiPassivi := None;
     Input.rolFiscale := None;
     Input.perditePregresseOrdinarie := None;
     Input.perditePrimi3Esercizi := None;
     Input.costoNuoveAssunzioni := None;
     Input.incrementoCostoPersonale := None |}.


(** ** Vocabulary of the statements *)

(** [denotes a q]: the number [a] is the rational [q] (so [a] is not [NaN]). *)
Definition denotes (a : number) (q : Q) : Prop :=
  match a with
  | Num x => x == q
  | NaN => False
  end.

(** [a] is a number, that is, not [NaN]. *)
Definition finite (a : number) : Prop :=
  match a with
  | Num _ => True
  | NaN => False
  end.

(** [a] is [NaN] or at least zero: no comparison finds it negative. *)
Definition notNegative (a : number) : Prop :=
  match a with
  | Num x => 0 <= x
  | NaN => True
  end.

(** The rational [field || 0] stands for. *)
Definition value (o : option Q) : Q :=
  match o with
  | Some q => q
  | None => 0
  end.

(** [round2] on rationals. *)
Definition round2Q (x : Q) : Q := inject_Z (Qfloor (x * 100 + (1 # 2))) / 100.

(** A result with its payment schedule left out. *)
Definition withoutSchedule (r : Result.t) : Result.t :=
  {| Result.fiscalYear := Result.fiscalYear r;
     Result.grossProfit := Result.grossProfit r;
     Result.taxableIncome := Result.taxableIncome r;
     Result.taxableIncomeAfterLosses := Result.taxableIncomeAfterLosses r;
     Result.iresAmount := Result.iresAmount r;
     Result.iresRate := Result.iresRate r;
     Result.isIresPremialeApplicable := Result.isIresPremialeApplicable r;
     Result.iresPremialeDetails := Result.iresPremialeDetails r;
     Result.irapBase := Result.irapBase r;
     Result.irapDeductions := Result.irapDeductions r;
     Result.irapTaxableIncome := Result.irapTaxableIncome r;
     Result.irapAmount := Result.irapAmount r;
     Result.irapRate := Result.irapRate r;
     Result.lossesUsed := Result.lossesUsed r;
     Result.remainingLosses := Result.remainingLosses r;
     Result.superDeductionAmount := Result.superDeductionAmount r;
     Result.rolDetails := Result.rolDetails r;
     Result.vatOnSales := Result.vatOnSales r;
     Result.vatOnPurchases := Result.vatOnPurchases r;
     Result.vatAmount := Result.vatAmount r;
     Result.vatQuarterly := Result.vatQuarterly r;
     Result.vatDeadlines := Result.vatDeadlines r;
     Result.inpsAdmin := Result.inpsAdmin r;
     Result.inpsEmployees := Result.inpsEmployees r;
     Result.inpsTotalAmount := Result.inpsTotalAmount r;
     Result.totalTaxes := Result.totalTaxes r;
     Result.totalDue := Result.totalDue r;
     Result.iresFirstAcconto := Result.iresFirstAcconto r;
     Result.iresSecondAcconto := Result.iresSecondAcconto r;
     Result.irapFirstAcconto := Result.irapFirstAcconto r;
     Result.irapSecondAcconto := Result.irapSecondAcconto r;
     Result.accontiDetails := Result.accontiDetails r;
     Result.monthlyAccrual := Result.monthlyAccrual r;
     Result.quarterlyPayments := Result.quarterlyPayments r;
     Result.calendar2025 := Result.calendar2025 r;
     Result.paymentSchedule := [] |}.

(** The host [host] moved to the time zone whose adjustment is [tza]. *)
Definition inZone (host : Host) (tza : Z) : Host :=
  {| now := now host; Date_parse := Date_parse host; LocalTZA := tza |}.

(** The rows of a ledger that starts from the (unrounded) balance [b]: each
    row reports the rounded balance before and after its event, and the
    unrounded balance is carried to the next row. *)
Inductive ledger : number -> list Row.t -> Prop :=
| ledger_end b : ledger b []
| ledger_deposit b row rows :
    Row.isIncome row = true ->
    Row.previousBalance row = round2 b ->
    Row.newBalance row = round2 (b + Row.amount row) ->
    Row.requiredPayment row = round2 (Row.amount row) ->
    ledger (b + Row.amount row) rows ->
    ledger b (row :: rows)
| ledger_payment b row rows :
    Row.isIncome row = false ->
    Row.previousBalance row = round2 b ->
    Row.newBalance row = round2 (Math.max (Num 0) (b - Row.amount row)) ->
    Row.requiredPayment row =
      round2 (if b - Row.amount row <? Num 0
              then Math.abs (b - Row.amount row) else Num 0) ->
    ledger (Math.max (Num 0) (b - Row.amount row)) rows ->
    ledger b (row :: rows).

(** The balance equation read on the values a row records. *)
Definition balanceAsRecorded (row : Row.t) : bool :=
  if Row.isIncome row then
    Row.newBalance row === Row.previousBalance row + Row.amount row
  else
    Row.newBalance row
      === Math.max (Num 0) (Row.previousBalance row - Row.amount row).

(** The same with the amount rounded to cents as well. *)
Definition balanceAsRecordedInCents (row : Row.t) : bool :=
  if Row.isIncome row then
    Row.newBalance row === Row.previousBalance row + round2 (Row.amount row)
  else
    Row.newBalance row
      === Math.max (Num 0) (Row.previousBalance row - round2 (Row.amount row)).

(** The required payment read on the values a row records: the absolute
    shortfall whenever the recorded balance does not cover the amount. *)
Definition shortfallAsRecorded (row : Row.t) : bool :=
  if Row.previousBalance row - Row.amount row <? Num 0 then
    Row.requiredPayment row
      === Math.abs (Row.previousBalance row - Row.amount row)
  else true.



(** * Proofs *)

Unset Implicit Arguments.

(** ** Facts about numbers *)

Local Open Scope Q_scope.

Lemma denotes_Num (q : Q) : denotes (Num q) q.
Proof. cbn. reflexivity. Qed.

Lemma denotes_finite a q : denotes a q -> finite a.
Proof. destruct a; cbn; tauto. Qed.


Lemma denotes_unique a x y : denotes a x -> denotes a y -> x == y.
Proof. destruct a; cbn; [tauto | intros <- <-; reflexivity]. Qed.

Ltac by_cases a b :=
  destruct a, b;
  cbn [denotes finite notNegative JS.add JS.sub JS.mul JS.div JS.ltb JS.leb
       JS.gtb JS.geb Math.max Math.min];
  try tauto.

Lemma denotes_add a b x y :
  denotes a x -> denotes b y -> denotes (a + b)%js (x + y).
Proof. by_cases a b. intros Ha Hb. now rewrite Qred_correct, Ha, Hb. Qed.

Lemma denotes_sub a b x y :
  denotes a x -> denotes b y -> denotes (a - b)%js (x - y).
Proof. by_cases a b. intros Ha Hb. now rewrite Qred_correct, Ha, Hb. Qed.

Lemma denotes_mul a b x y :
  denotes a x -> denotes b y -> denotes (a * b)%js (x * y).
Proof. by_cases a b. intros Ha Hb. now rewrite Qred_correct, Ha, Hb. Qed.



Lemma denotes_min a b x y :
  denotes a x -> denotes b y -> denotes (Math.min a b) (Qmin x y).
Proof.
  by_cases a b. intros Ha Hb.
  destruct (Qle_bool q q0) eqn:E; cbn [denotes].
  - apply Qle_bool_iff in E. rewrite Ha. rewrite Ha, Hb in E.
    symmetry. now apply Q.min_l.
  - assert (~ q <= q0) as N by (rewrite <- Qle_bool_iff; congruence).
    rewrite Hb. rewrite Ha, Hb in N. symmetry. apply Q.min_r. lra.
Qed.

Lemma denotes_round2 a x : denotes a x -> denotes (round2 a) (round2Q x).
Proof.
  destruct a; cbn [denotes round2 Math.round JS.mul JS.div]; [tauto |].
  intros Ha. change (Qeq_bool 100 0) with false. cbn [denotes].
  unfold round2Q. now rewrite !Qred_correct, Ha.
Qed.

Lemma denotes_opt_or_0 (o : option Q) : denotes (o || Num 0)%js (value o).
Proof.
  destruct o as [q |]; unfold JS.opt_or, JS.or, JS.truthy, value.
  - destruct (Qeq_bool q 0) eqn:E; unfold negb, denotes; [| reflexivity].
    apply Qeq_bool_iff in E. now rewrite E.
  - unfold denotes. reflexivity.
Qed.

(** Comparisons of numbers that denote rationals. *)

Lemma leb_denotes a b x y :
  denotes a x -> denotes b y -> ((a <=? b)%js = true <-> x <= y).
Proof. by_cases a b. intros Ha Hb. now rewrite Qle_bool_iff, Ha, Hb. Qed.

Lemma ltb_denotes a b x y :
  denotes a x -> denotes b y -> ((a <? b)%js = true <-> x < y).
Proof.
  by_cases a b. intros Ha Hb. rewrite <- Ha, <- Hb, Qlt_alt.
  destruct (q ?= q0); split; congruence.
Qed.

Lemma ltb_false_denotes a b x y :
  denotes a x -> denotes b y -> ((a <? b)%js = false <-> y <= x).
Proof.
  intros Ha Hb. pose proof (ltb_denotes a b x y Ha Hb) as H.
  destruct (a <? b)%js.
  - split; [discriminate |]. intros. assert (x < y) by now apply H. lra.
  - split; [| reflexivity]. intros _. destruct (Qlt_le_dec x y) as [L | L]; [| exact L].
    apply H in L. discriminate.
Qed.

Lemma gtb_denotes a b x y :
  denotes a x -> denotes b y -> ((a >? b)%js = true <-> y < x).
Proof. intros Ha Hb. unfold JS.gtb. now apply ltb_denotes. Qed.


Lemma eqb_denotes a b x y :
  denotes a x -> denotes b y -> ((a === b)%js = true <-> x == y).
Proof.
  destruct a, b; cbn [denotes JS.eqb]; try tauto.
  intros Ha Hb. now rewrite Qeq_bool_iff, Ha, Hb.
Qed.

(** [round2] is monotone, fixes zero, and does not see how its argument is
    written. *)

Lemma round2Q_comp x y : x == y -> round2Q x == round2Q y.
Proof.
  intros H. unfold round2Q.
  assert (Qfloor (x * 100 + (1 # 2)) = Qfloor (y * 100 + (1 # 2))) as ->
    by (apply Qfloor_comp; now rewrite H).
  reflexivity.
Qed.

#[local] Instance round2Q_Proper : Proper (Qeq ==> Qeq) round2Q.
Proof. exact round2Q_comp. Qed.

Lemma round2Q_mono x y : x <= y -> round2Q x <= round2Q y.
Proof.
  intros H. unfold round2Q.
  assert (inject_Z (Qfloor (x * 100 + (1 # 2)))
          <= inject_Z (Qfloor (y * 100 + (1 # 2)))) as L.
  { rewrite <- Zle_Qle. apply Qfloor_resp_le. lra. }
  unfold Qdiv. setoid_replace (/ 100) with (1 # 100) by reflexivity. lra.
Qed.

Lemma round2Q_0 : round2Q 0 == 0.
Proof. reflexivity. Qed.

Lemma round2Q_nonneg x : 0 <= x -> 0 <= round2Q x.
Proof. intros H. rewrite <- round2Q_0. now apply round2Q_mono. Qed.



Lemma round2_0 : round2 (Num 0) = Num 0.
Proof. reflexivity. Qed.

Lemma round2_NaN : round2 NaN = NaN.
Proof. reflexivity. Qed.

(** Closure of [finite] and of [notNegative] under the operations. *)

Lemma finite_Num q : finite (Num q).
Proof. exact I. Qed.










Lemma notNegative_Num q : 0 <= q -> notNegative (Num q).
Proof. now cbn. Qed.

Lemma notNegative_add a b :
  notNegative a -> notNegative b -> notNegative (a + b)%js.
Proof. by_cases a b. intros. rewrite Qred_correct. lra. Qed.

Lemma notNegative_mul a b :
  notNegative a -> notNegative b -> notNegative (a * b)%js.
Proof. by_cases a b. intros. rewrite Qred_correct. now apply Qmult_le_0_compat. Qed.

Lemma notNegative_div a c : 0 < c -> notNegative a -> notNegative (a / Num c)%js.
Proof.
  destruct a; cbn [notNegative JS.div]; [tauto |]. intros Hc Ha.
  destruct (Qeq_bool c 0); cbn [notNegative]; [exact I |].
  rewrite Qred_correct. apply Qle_shift_div_l; lra.
Qed.

Lemma notNegative_max_l a b : notNegative a -> notNegative (Math.max a b).
Proof.
  by_cases a b. intros Ha. destruct (Qle_bool q q0) eqn:E; cbn [notNegative]; [| exact Ha].
  apply Qle_bool_iff in E. lra.
Qed.

Lemma notNegative_round2 a : notNegative a -> notNegative (round2 a).
Proof.
  destruct a as [| q]; [exact (fun H => H) |]. intros Ha.
  destruct (round2 (Num q)) as [| r] eqn:E; [exact I |].
  pose proof (denotes_round2 (Num q) q (denotes_Num q)) as D.
  rewrite E in D. cbn [denotes notNegative] in *. rewrite D.
  now apply round2Q_nonneg.
Qed.

Lemma notNegative_if (c : bool) a b :
  notNegative a -> notNegative b -> notNegative (if c then a else b).
Proof. now destruct c. Qed.



Lemma geb_0_inv a : (a >=? Num 0)%js = true -> finite a /\ notNegative a.
Proof. destruct a; cbn; [discriminate |]. intros H. split; [exact I |]. now apply Qle_bool_iff. Qed.

(** The rate tables. *)

Lemma IRAP_RATES_positive k r : assoc k IRAP_RATES = Some r -> 0 < r.
Proof.
  unfold IRAP_RATES. cbn [assoc].
  repeat (destruct (String.eqb k _); [intros [= <-]; reflexivity |]).
  discriminate.
Qed.

Lemma irapRate_notNegative region : notNegative (irapRate_of region).
Proof.
  unfold irapRate_of, get. destruct (assoc region IRAP_RATES) as [r |] eqn:E.
  - apply IRAP_RATES_positive in E. apply notNegative_div; [reflexivity |].
    unfold JS.or. apply notNegative_if; cbn; [lra | discriminate].
  - destruct (inherited_key region); [exact I | cbn; discriminate].
Qed.



(** ** Facts about [Array_sort]: the result is a permutation *)

Section SortFacts.

Variable A : Type.
Variable cmp : A -> A -> number.

Lemma insert_Permutation (x : A) (l : list A) :
  Permutation (insert cmp x l) (x :: l).
Proof.
  induction l as [| y l IH]; cbn [insert]; [reflexivity |].
  destruct (after cmp x y); [| reflexivity].
  rewrite IH. apply perm_swap.
Qed.

Lemma Array_sort_Permutation (l : list A) : Permutation (Array_sort cmp l) l.
Proof.
  induction l as [| x l IH]; cbn [Array_sort]; [reflexivity |].
  rewrite insert_Permutation. now constructor.
Qed.

Lemma Array_sort_Forall (P : A -> Prop) (l : list A) :
  Forall P l -> Forall P (Array_sort cmp l).
Proof.
  intros H. eapply Permutation_Forall; [| exact H].
  symmetry. apply Array_sort_Permutation.
Qed.

End SortFacts.

(** Comparators that agree sort alike. *)
Lemma insert_ext (A : Type) (cmp1 cmp2 : A -> A -> number) (x : A)
    (l : list A) :
  (forall a b, cmp1 a b = cmp2 a b) -> insert cmp1 x l = insert cmp2 x l.
Proof.
  intros E. induction l as [| y l IH]; cbn [insert]; [reflexivity |].
  unfold after. now rewrite E, IH.
Qed.

Lemma Array_sort_ext (A : Type) (cmp1 cmp2 : A -> A -> number) (l : list A) :
  (forall a b, cmp1 a b = cmp2 a b) -> Array_sort cmp1 l = Array_sort cmp2 l.
Proof.
  intros E. induction l as [| x l IH]; cbn [Array_sort]; [reflexivity |].
  rewrite IH. now apply insert_ext.
Qed.

(** ** Two hosts with the same date parser and time zone *)

Section SameParser.

Variables h1 h2 : Host.
Hypothesis same_parser : forall s, Date_parse h1 s = Date_parse h2 s.
Hypothesis same_zone : LocalTZA h1 = LocalTZA h2.

Lemma compareDates_ext (a b : string) :
  compareDates h1 a b = compareDates h2 a b.
Proof. unfold compareDates, dateOf, new_Date. now rewrite !same_parser. Qed.

Lemma createFiscalCalendar2025_ext a1 a2 a3 a4 deadlines inps fy isNew :
  createFiscalCalendar2025 h1 a1 a2 a3 a4 deadlines inps fy isNew
  = createFiscalCalendar2025 h2 a1 a2 a3 a4 deadlines inps fy isNew.
Proof.
  unfold createFiscalCalendar2025. cbv zeta.
  apply Array_sort_ext. intros a b. apply compareDates_ext.
Qed.

Lemma resolveStartYear_ext (input : Input.t) :
  resolveStartYear h1 input = resolveStartYear h2 input.
Proof.
  unfold resolveStartYear, getFullYear, new_Date. cbv zeta.
  destruct (Input.startDate input) as [s |]; [| reflexivity].
  now rewrite same_parser, same_zone.
Qed.

End SameParser.

(** ** Facts about the replay loop *)

Lemma notNegative_ltb_0 a : notNegative a -> (a <? Num 0)%js = false.
Proof.
  destruct a; cbn; [reflexivity |]. intros H.
  destruct (q ?= 0) eqn:E; try reflexivity.
  apply Qlt_alt in E. lra.
Qed.

(** Clamping at zero, as the loop writes it, is [Math.max(0, x)]. *)
Lemma clamp_is_max x :
  (if (x <? Num 0)%js then Num 0 else x) = Math.max (Num 0) x.
Proof.
  destruct x as [| q]; cbn; [reflexivity |].
  destruct (q ?= 0) eqn:E, (Qle_bool 0 q) eqn:L; try reflexivity.
  - apply Qeq_alt in E. assert (~ 0 <= q) by (rewrite <- Qle_bool_iff; congruence). lra.
  - apply Qlt_alt in E. apply Qle_bool_iff in L. lra.
  - apply Qgt_alt in E. assert (~ 0 <= q) by (rewrite <- Qle_bool_iff; congruence). lra.
Qed.

Lemma max_0_ltb_0 x : (Math.max (Num 0) x <? Num 0)%js = false.
Proof. apply notNegative_ltb_0. now apply notNegative_max_l. Qed.

(** One iteration on a deposit. *)
Lemma replayEvent_income b schedule e :
  Event.isIncome e = true ->
  replayEvent (b, schedule) e
  = ((b + Event.amount e)%js,
     (schedule ++
       [ {| Row.date := Event.date e;
            Row.amount := Event.amount e;
            Row.type := Event.type e;
            Row.category := Event.category e;
            Row.description := Event.description e;
            Row.previousBalance := round2 b;
            Row.newBalance := round2 (b + Event.amount e);
            Row.deficit :=
              round2 (if (b + Event.amount e <? Num 0)%js
                      then Math.abs (b + Event.amount e) else Num 0);
            Row.isIncome := true;
            Row.requiredPayment := round2 (Event.amount e) |} ])%list).
Proof. intros H. unfold replayEvent, push. now rewrite H. Qed.

(** One iteration on an obligation. *)
Lemma replayEvent_payment b schedule e :
  Event.isIncome e = false ->
  replayEvent (b, schedule) e
  = (Math.max (Num 0) (b - Event.amount e)%js,
     (schedule ++
       [ {| Row.date := Event.date e;
            Row.amount := Event.amount e;
            Row.type := Event.type e;
            Row.category := Event.category e;
            Row.description := Event.description e;
            Row.previousBalance := round2 b;
            Row.newBalance := round2 (Math.max (Num 0) (b - Event.amount e)%js);
            Row.deficit := Num 0;
            Row.isIncome := false;
            Row.requiredPayment :=
              round2 (if (b - Event.amount e <? Num 0)%js
                      then Math.abs (b - Event.amount e) else Num 0) |} ])%list).
Proof.
  intros H. unfold replayEvent, push. rewrite H.
  rewrite <- clamp_is_max.
  destruct (b - Event.amount e <? Num 0)%js eqn:E.
  - reflexivity.
  - rewrite E. reflexivity.
Qed.

(** The rows the loop appends form a ledger. *)
Lemma replay_ledger (events : list Event.t) :
  forall b schedule,
  exists rows,
    snd (fold_left replayEvent events (b, schedule)) = (schedule ++ rows)%list
    /\ ledger b rows.
Proof.
  induction events as [| e events IH]; intros b schedule; cbn [fold_left].
  - exists []. split; [cbn; now rewrite app_nil_r | constructor].
  - destruct (Event.isIncome e) eqn:I.
    + rewrite (replayEvent_income b schedule e I).
      match goal with
      | |- context [fold_left _ _ (?b', (_ ++ [?row])%list)] =>
          destruct (IH b' (schedule ++ [row])%list) as (rows & -> & L);
          exists (row :: rows)
      end.
      split; [now rewrite <- app_assoc |].
      now apply ledger_deposit.
    + rewrite (replayEvent_payment b schedule e I).
      match goal with
      | |- context [fold_left _ _ (?b', (_ ++ [?row])%list)] =>
          destruct (IH b' (schedule ++ [row])%list) as (rows & -> & L);
          exists (row :: rows)
      end.
      split; [now rewrite <- app_assoc |].
      now apply ledger_payment.
Qed.

(** Rows of obligations report no deficit; rows of deposits report none
    either as long as the balance and the deposits are not negative. *)
Lemma replay_deficit (ok : Prop) (events : list Event.t) :
  Forall (fun e => Event.isIncome e = true -> notNegative (Event.amount e))
         events ->
  forall b schedule,
  (ok -> notNegative b) ->
  Forall (fun row => Row.isIncome row = false \/ ok -> Row.deficit row = Num 0)
         schedule ->
  Forall (fun row => Row.isIncome row = false \/ ok -> Row.deficit row = Num 0)
         (snd (fold_left replayEvent events (b, schedule))).
Proof.
  induction 1 as [| e events He _ IH]; intros b schedule Hb Hs; cbn [fold_left].
  - exact Hs.
  - destruct (Event.isIncome e) eqn:I.
    + rewrite (replayEvent_income b schedule e I). apply IH.
      * intros Hok. apply notNegative_add; auto.
      * apply Forall_app. split; [exact Hs |]. constructor; [| constructor].
        cbn [Row.isIncome Row.deficit]. intros [? | Hok]; [discriminate |].
        rewrite notNegative_ltb_0; [reflexivity |].
        apply notNegative_add; auto.
    + rewrite (replayEvent_payment b schedule e I). apply IH.
      * intros _. now apply notNegative_max_l.
      * apply Forall_app. split; [exact Hs |]. constructor; [| constructor].
        reflexivity.
Qed.

Lemma gtb_0_positive q : (Num q >? Num 0)%js = true -> 0 < q.
Proof. intros H. now apply (gtb_denotes (Num q) (Num 0) q 0 (denotes_Num q) (denotes_Num 0)). Qed.

Ltac not_negative :=
  repeat
    lazymatch goal with
    | |- notNegative NaN => exact I
    | |- notNegative (JS.add _ _) => apply notNegative_add
    | |- notNegative (JS.mul _ _) => apply notNegative_mul
    | |- notNegative (JS.div _ (Num _)) =>
        apply notNegative_div; [reflexivity |]
    | |- notNegative (Math.max _ _) => apply notNegative_max_l
    | |- notNegative (irapRate_of _) => apply irapRate_notNegative
    | |- notNegative (round2 _) => apply notNegative_round2
    | |- notNegative (if andb _ (Num ?q >? Num 0)%js then _ else _) =>
        let E := fresh "E" in
        destruct (Num q >? Num 0)%js eqn:E;
        [ apply gtb_0_positive in E; rewrite ?andb_true_r
        | rewrite ?andb_false_r ]
    | |- notNegative (if (Num ?q >? Num 0)%js then _ else _) =>
        let E := fresh "E" in
        destruct (Num q >? Num 0)%js eqn:E; [apply gtb_0_positive in E |]
    | |- notNegative (if _ then _ else _) => apply notNegative_if
    | |- notNegative (Num _) => apply notNegative_Num; first [discriminate | lra]
    end.

Section OrchestratorFacts.

Variable host : Host.

(** The schedule is the replay of some calendar with a monthly accrual that
    is never negative. *)
Lemma paymentSchedule_replay (input : Input.t) :
  exists calendar accrual,
    Result.paymentSchedule (calculateSRLTaxes host input)
    = createPaymentSchedule host calendar (Num (Input.currentBalance input))
        accrual (fiscalYear_or_2025 input)
    /\ notNegative accrual.
Proof.
  unfold calculateSRLTaxes. cbv zeta. cbn [Result.paymentSchedule].
  eexists _, _. split; [reflexivity |].
  not_negative.
Qed.

Lemma createPaymentSchedule_ledger calendar b accrual fiscalYear :
  ledger b (createPaymentSchedule host calendar b accrual fiscalYear).
Proof.
  unfold createPaymentSchedule. cbv zeta.
  match goal with
  | |- ledger _ (snd (fold_left _ ?events _)) =>
      destruct (replay_ledger events b []) as (rows & -> & L)
  end.
  exact L.
Qed.

Lemma monthlyDeposits_amount accrual fiscalYear :
  Forall (fun e => Event.amount e = accrual)
         (monthlyDeposits host accrual fiscalYear).
Proof.
  unfold monthlyDeposits. apply Forall_flat_map, Forall_forall. intros month _.
  cbv zeta. destruct (notBeforeToday host _); repeat constructor.
Qed.

Lemma futurePayments_isIncome calendar :
  Forall (fun e => Event.isIncome e = false) (futurePayments host calendar).
Proof.
  unfold futurePayments. apply Forall_flat_map, Forall_forall. intros payment _.
  cbv zeta. destruct (notBeforeToday host _); repeat constructor.
Qed.

Lemma createPaymentSchedule_deficit (ok : Prop) calendar b accrual fiscalYear :
  notNegative accrual ->
  (ok -> notNegative b) ->
  Forall (fun row => Row.isIncome row = false \/ ok -> Row.deficit row = Num 0)
         (createPaymentSchedule host calendar b accrual fiscalYear).
Proof.
  intros Ha Hb. unfold createPaymentSchedule. cbv zeta.
  apply replay_deficit; [| exact Hb | constructor].
  apply Array_sort_Forall, Forall_app. split.
  - eapply Forall_impl; [| apply monthlyDeposits_amount].
    cbv beta. intros e -> _. exact Ha.
  - eapply Forall_impl; [| apply futurePayments_isIncome].
    cbv beta. intros e -> [=].
Qed.

End OrchestratorFacts.

(** ** Facts about the resolvers *)










(** ** Facts about the VAT shares and the calendar *)





(** * The claims *)

Local Open Scope string_scope.

(** ** C1: determinism *)

(** C1, counterexample.  The same input record, evaluated on 1 January 2025
    and on 1 March 2026, gives two different output records: the payment
    schedule has 24 rows on the first date and none on the second.  The time
    zone is read as well: a business with start date 2025-01-01 is new in
    UTC and, at the same instant, not new five hours west of it, where the
    local year of that date is 2024. *)
Lemma C1_schedule_depends_on_clock :
  calculateSRLTaxes (iso_host 2025 1 1)
    (scenario "LAZIO" "TRIMESTRALE" (Some 2023%Z) (Some 2025%Z))
  <> calculateSRLTaxes (iso_host 2026 3 1)
       (scenario "LAZIO" "TRIMESTRALE" (Some 2023%Z) (Some 2025%Z))
  /\ List.length
       (Result.paymentSchedule
          (calculateSRLTaxes (iso_host 2025 1 1)
             (scenario "LAZIO" "TRIMESTRALE" (Some 2023%Z) (Some 2025%Z))))
     = 24%nat
  /\ Result.paymentSchedule
       (calculateSRLTaxes (iso_host 2026 3 1)
          (scenario "LAZIO" "TRIMESTRALE" (Some 2023%Z) (Some 2025%Z)))
     = []
  /\ AccontiDetails.isNewBusiness
       (Result.accontiDetails
          (calculateSRLTaxes (iso_host 2025 1 1)
             (bare 0 0 0 0 None None None (Some "2025-01-01") None)))
     = true
  /\ AccontiDetails.isNewBusiness
       (Result.accontiDetails
          (calculateSRLTaxes (inZone (iso_host 2025 1 1) (-18000000))
             (bare 0 0 0 0 None None None (Some "2025-01-01") None)))
     = false.
Proof.
  split; [| vm_compute; repeat split].
  intros H.
  apply (f_equal (fun r => List.length (Result.paymentSchedule r))) in H.
  vm_compute in H. discriminate H.
Qed.

(** C1, amended.  The output is a function of the input record and of the
    host; of the host's clock it is only the payment schedule that depends:
    two invocations on the same input, on hosts with the same date parser
    and time zone but any two current dates, agree on every field other than
    [paymentSchedule], [calendar2025] included. *)
Theorem C1_clock_only_reaches_schedule (h1 h2 : Host) (input : Input.t) :
  (forall s, Date_parse h1 s = Date_parse h2 s) ->
  LocalTZA h1 = LocalTZA h2 ->
  withoutSchedule (calculateSRLTaxes h1 input)
  = withoutSchedule (calculateSRLTaxes h2 input).
Proof.
  intros P Z. unfold withoutSchedule, calculateSRLTaxes. cbv zeta.
  cbn [Result.fiscalYear Result.grossProfit Result.taxableIncome
       Result.taxableIncomeAfterLosses Result.iresAmount Result.iresRate
       Result.isIresPremialeApplicable Result.iresPremialeDetails
       Result.irapBase Result.irapDeductions Result.irapTaxableIncome
       Result.irapAmount Result.irapRate Result.lossesUsed
       Result.remainingLosses Result.superDeductionAmount Result.rolDetails
       Result.vatOnSales Result.vatOnPurchases Result.vatAmount
       Result.vatQuarterly Result.vatDeadlines Result.inpsAdmin
       Result.inpsEmployees Result.inpsTotalAmount Result.totalTaxes
       Result.totalDue Result.iresFirstAcconto Result.iresSecondAcconto
       Result.irapFirstAcconto Result.irapSecondAcconto Result.accontiDetails
       Result.monthlyAccrual Result.quarterlyPayments Result.calendar2025].
  rewrite (resolveStartYear_ext h1 h2 P Z input).
  rewrite (createFiscalCalendar2025_ext h1 h2 P).
  reflexivity.
Qed.

Lemma C1_clock_only_reaches_schedule_witness :
  withoutSchedule
    (calculateSRLTaxes (iso_host 2025 1 1)
       (scenario "LAZIO" "TRIMESTRALE" (Some 2023%Z) (Some 2025%Z)))
  = withoutSchedule
      (calculateSRLTaxes (iso_host 2026 3 1)
         (scenario "LAZIO" "TRIMESTRALE" (Some 2023%Z) (Some 2025%Z))).
Proof.
  exact (C1_clock_only_reaches_schedule (iso_host 2025 1 1) (iso_host 2026 3 1)
           (scenario "LAZIO" "TRIMESTRALE" (Some 2023%Z) (Some 2025%Z))
           (fun s => eq_refl) eq_refl).
Defined.

(** ** C2: order of the three income figures *)




(** ** C3: the deficit field *)

(** C3, counterexample.  Starting 1000 overdrawn with nothing due, the first
    row is a deposit of 0 that leaves the balance at -1000 and reports a
    deficit of 1000. *)
Lemma C3_overdrawn_deposit_row_reports_deficit :
  ~ Forall (fun row => Row.deficit row = Num 0)
      (Result.paymentSchedule
         (calculateSRLTaxes (iso_host 2025 1 1)
            (bare 0 0 0 (-1000) None None None None None))).
Proof.
  intros H. apply Forall_inv in H. vm_compute in H. discriminate H.
Qed.

(** C3, amended.  Every row of an obligation has deficit 0, and when the
    starting balance is not negative every row has deficit 0. *)
Theorem C3_deficit_zero (host : Host) (input : Input.t) :
  Forall (fun row =>
            Row.isIncome row = false \/ 0 <= Input.currentBalance input ->
            Row.deficit row = Num 0)
         (Result.paymentSchedule (calculateSRLTaxes host input)).
Proof.
  destruct (paymentSchedule_replay host input) as (calendar & accrual & -> & Ha).
  apply createPaymentSchedule_deficit; [exact Ha |].
  intros H. exact H.
Qed.

Lemma C3_deficit_zero_witness :
  Forall (fun row => Row.deficit row = Num 0)
         (Result.paymentSchedule
            (calculateSRLTaxes (iso_host 2025 1 1)
               (scenario "LAZIO" "TRIMESTRALE" (Some 2023%Z) (Some 2025%Z)))).
Proof.
  eapply Forall_impl;
    [| exact (C3_deficit_zero (iso_host 2025 1 1)
                (scenario "LAZIO" "TRIMESTRALE" (Some 2023%Z) (Some 2025%Z)))].
  cbv beta. intros row H. apply H. right. discriminate.
Defined.

(** ** C4: the balance equation of a row *)

(** C4, counterexample.  With 1 euro of VAT due and nothing else, the monthly
    deposit is 1/12.  The first row records previous balance 0, amount 1/12
    and new balance 0.08, which is not their sum; the fifth row records 0.33
    and 0.42, which differ by more than the amount even when it is rounded to
    0.08; the second row is a deposit whose required payment 0.08 is not the
    shortfall of 0.08 against 1/12. *)
Lemma C4_rows_do_not_add_up_as_recorded :
  ~ Forall (fun row => balanceAsRecorded row = true)
      (Result.paymentSchedule
         (calculateSRLTaxes (iso_host 2025 1 1)
            (bare 0 0 0 0 (Some 1) None None None None)))
  /\ ~ Forall (fun row => balanceAsRecordedInCents row = true)
         (Result.paymentSchedule
            (calculateSRLTaxes (iso_host 2025 1 1)
               (bare 0 0 0 0 (Some 1) None None None None)))
  /\ ~ Forall (fun row => shortfallAsRecorded row = true)
         (Result.paymentSchedule
            (calculateSRLTaxes (iso_host 2025 1 1)
               (bare 0 0 0 0 (Some 1) None None None None))).
Proof.
  repeat split; intros H.
  - apply Forall_inv in H. vm_compute in H. discriminate H.
  - do 4 apply Forall_inv_tail in H. apply Forall_inv in H.
    vm_compute in H. discriminate H.
  - apply Forall_inv_tail, Forall_inv in H. vm_compute in H. discriminate H.
Qed.

(** C4, amended.  The rows form a ledger over the unrounded running balance
    [b], which starts at the current balance: a row records [round2 b] as
    previous balance; a deposit records [round2 (b + amount)] as new balance
    and [round2 amount] as required payment, and carries [b + amount]; an
    obligation records [round2 (max 0 (b - amount))] as new balance and, as
    required payment, [round2 |b - amount|] when [b - amount < 0] and 0
    otherwise, and carries [max 0 (b - amount)]. *)
Theorem C4_schedule_is_ledger (host : Host) (input : Input.t) :
  ledger (Num (Input.currentBalance input))
         (Result.paymentSchedule (calculateSRLTaxes host input)).
Proof.
  destruct (paymentSchedule_replay host input) as (calendar & accrual & -> & _).
  apply createPaymentSchedule_ledger.
Qed.

(** ** C5: installments of a new business *)




(** ** C6: an unparseable start date *)

(** C6, the code at the failing input.  With no start year and the start
    date ["non-date"], the date is invalid and the resolved start year is
    [NaN], not 2025: the business is not flagged as new, whereas it is with
    the start year 2025 supplied and with no start date at all. *)
Lemma C6_unparseable_start_date_gives_NaN :
  new_Date (iso_host 2025 1 1) "non-date" = None
  /\ resolveStartYear (iso_host 2025 1 1)
       (bare 0 0 0 0 None None None (Some "non-date") None) = NaN
  /\ AccontiDetails.isNewBusiness
       (Result.accontiDetails
          (calculateSRLTaxes (iso_host 2025 1 1)
             (bare 0 0 0 0 None None None (Some "non-date") None))) = false
  /\ AccontiDetails.isNewBusiness
       (Result.accontiDetails
          (calculateSRLTaxes (iso_host 2025 1 1)
             (bare 0 0 0 0 None None None None (Some 2025%Z)))) = true
  /\ AccontiDetails.isNewBusiness
       (Result.accontiDetails
          (calculateSRLTaxes (iso_host 2025 1 1)
             (bare 0 0 0 0 None None None None None))) = true.
Proof. vm_compute. repeat split. Qed.

(** ** C7: the preferential rate *)

(** C7, the code at the failing input.  A company that meets the five
    conditions and leaves [fiscalYear] out is computed for fiscal year 2025
    (the default) at the standard rate 0.24; the same input with
    [fiscalYear] given as 2025 gets 0.20. *)
Lemma C7_default_fiscal_year_gets_standard_rate :
  Result.fiscalYear
    (calculateSRLTaxes (iso_host 2025 1 1) (premiale None)) = 2025%Z
  /\ Result.iresRate
       (calculateSRLTaxes (iso_host 2025 1 1) (premiale None)) = Num 0.24
  /\ Result.isIresPremialeApplicable
       (calculateSRLTaxes (iso_host 2025 1 1) (premiale None)) = false
  /\ Result.iresRate
       (calculateSRLTaxes (iso_host 2025 1 1) (premiale (Some 2025%Z)))
     = Num 0.20
  /\ Result.isIresPremialeApplicable
       (calculateSRLTaxes (iso_host 2025 1 1) (premiale (Some 2025%Z))) = true.
Proof. vm_compute. repeat split. Qed.

(** ** C8: VAT deadlines *)



(** ** C9: use of the tax losses *)

(** C9.  When the income before losses is at most zero, no loss is used and
    the ordinary-loss balance comes back unchanged.  When it is positive,
    the losses of the first three years are used first, up to the whole
    income; the ordinary losses are then used up to 80% of what remains;
    the losses used are the sum of the two, the balance that comes back is
    the ordinary one less its used part, and neither used part exceeds what
    was available in its category. *)
Theorem C9_losses_usage (reddito : number) (input : Input.t) :
  let usage := calculateLossesUsage reddito input in
  let ordinary := value (Input.perditePregresseOrdinarie input) in
  let first3 := value (Input.perditePrimi3Esercizi input) in
  ((reddito <=? Num 0)%js = true ->
   LossesUsage.lossesUsed usage = Num 0
   /\ denotes (LossesUsage.remainingLosses usage) ordinary)
  /\ (forall income : Q,
        denotes reddito income -> 0 < income ->
        exists used3 usedOrdinary : Q,
          used3 == Qmin first3 income
          /\ usedOrdinary == Qmin ordinary ((income - used3) * 0.8)
          /\ denotes (LossesUsage.lossesUsed usage) (used3 + usedOrdinary)
          /\ denotes (LossesUsage.remainingLosses usage)
                     (ordinary - usedOrdinary)
          /\ used3 <= first3
          /\ usedOrdinary <= ordinary).
Proof.
  cbv zeta. unfold calculateLossesUsage. split.
  - intros ->. cbn [LossesUsage.lossesUsed LossesUsage.remainingLosses].
    split; [reflexivity | apply denotes_opt_or_0].
  - intros income Hr Hpos.
    assert ((reddito <=? Num 0)%js = false) as ->.
    { destruct (reddito <=? Num 0)%js eqn:E; [| reflexivity].
      apply (leb_denotes reddito (Num 0) income 0 Hr (denotes_Num 0)) in E.
      lra. }
    cbv zeta. cbn [LossesUsage.lossesUsed LossesUsage.remainingLosses].
    pose proof (denotes_opt_or_0 (Input.perditePregresseOrdinarie input)) as Ho.
    pose proof (denotes_opt_or_0 (Input.perditePrimi3Esercizi input)) as H3.
    set (ordinary := value (Input.perditePregresseOrdinarie input)) in *.
    set (first3 := value (Input.perditePrimi3Esercizi input)) in *.
    pose proof (denotes_min _ _ _ _ H3 Hr) as Hu3.
    pose proof (denotes_sub _ _ _ _ Hr Hu3) as Hres.
    pose proof (denotes_mul _ _ _ _ Hres (denotes_Num 0.8)) as Hlim.
    pose proof (denotes_min _ _ _ _ Ho Hlim) as Huo.
    exists (Qmin first3 income),
           (Qmin ordinary ((income - Qmin first3 income) * 0.8)).
    repeat split; try reflexivity.
    + now apply denotes_add.
    + now apply denotes_sub.
    + apply Q.le_min_l.
    + apply Q.le_min_l.
Qed.

Lemma C9_losses_usage_witness :
  (LossesUsage.lossesUsed
     (calculateLossesUsage (Num (-5))
        (bare 0 0 0 0 None (Some 300) (Some 40) None None)) = Num 0
   /\ denotes
        (LossesUsage.remainingLosses
           (calculateLossesUsage (Num (-5))
              (bare 0 0 0 0 None (Some 300) (Some 40) None None))) 300)
  /\ exists used3 usedOrdinary : Q,
       used3 == Qmin 40 100
       /\ usedOrdinary == Qmin 300 ((100 - used3) * 0.8)
       /\ denotes
            (LossesUsage.lossesUsed
               (calculateLossesUsage (Num 100)
                  (bare 0 0 0 0 None (Some 300) (Some 40) None None)))
            (used3 + usedOrdinary)
       /\ denotes
            (LossesUsage.remainingLosses
               (calculateLossesUsage (Num 100)
                  (bare 0 0 0 0 None (Some 300) (Some 40) None None)))
            (300 - usedOrdinary)
       /\ used3 <= 40
       /\ usedOrdinary <= 300.
Proof.
  split.
  - exact (proj1 (C9_losses_usage (Num (-5))
                    (bare 0 0 0 0 None (Some 300) (Some 40) None None))
                 eq_refl).
  - refine (proj2 (C9_losses_usage (Num 100)
                     (bare 0 0 0 0 None (Some 300) (Some 40) None None))
                  100 _ _).
    + reflexivity.
    + reflexivity.
Defined.

(** ** C10: sign of the amounts *)

(** C10, the code at the failing input.  The region name ["constructor"] is
    not a key of the rate table but names a member every object inherits,
    so the fallback rate is not taken and the rate is [NaN]; the production
    tax, the total taxes and the total due are [NaN], which is not at least
    zero. *)
Lemma C10_inherited_region_name_gives_NaN :
  Result.irapRate
    (calculateSRLTaxes (iso_host 2025 1 1)
       (scenario "constructor" "TRIMESTRALE" (Some 2023%Z) (Some 2025%Z)))
  = NaN
  /\ Result.irapAmount
       (calculateSRLTaxes (iso_host 2025 1 1)
          (scenario "constructor" "TRIMESTRALE" (Some 2023%Z) (Some 2025%Z)))
     = NaN
  /\ Result.totalTaxes
       (calculateSRLTaxes (iso_host 2025 1 1)
          (scenario "constructor" "TRIMESTRALE" (Some 2023%Z) (Some 2025%Z)))
     = NaN
  /\ Result.totalDue
       (calculateSRLTaxes (iso_host 2025 1 1)
          (scenario "constructor" "TRIMESTRALE" (Some 2023%Z) (Some 2025%Z)))
     = NaN
  /\ (Result.irapAmount
        (calculateSRLTaxes (iso_host 2025 1 1)
           (scenario "constructor" "TRIMESTRALE" (Some 2023%Z) (Some 2025%Z)))
      >=? Num 0)%js = false.
Proof. vm_compute. repeat split. Qed.

(** * Further properties *)



